(** * Fitness tracker (homework.py): a shallow embedding and its properties

    The module computes distance, mean speed and spent calories for three
    kinds of training and renders them in a fixed message.

    Numbers.  Python evaluates the formulas on [float] (IEEE binary64); the
    functions below are written once, over an interface [PyFloat] of the
    operations the source applies, and the interface has two instances:
    - [binary64]: the kernel's primitive floats, what the interpreter
      computes, rounding included;
    - [exact]: the rationals [Q], every operation without rounding, the
      arithmetic in which the formulas of the documentation are written.
    An [int] argument is represented by its float value: every operation of
    the source but one converts an [int] operand to [float] before use (the
    one is [length_pool * count_pool], whose result is divided by 1000 at
    once), and the conversion is exact below 2^53. *)

From Stdlib Require Import ZArith QArith Qround Qabs Floats Bool List String Ascii Lia.
From Stdlib Require Uint63.
From Stdlib Require Import DecimalString Lqa Qfield.
Import ListNotations.
Set Warnings "-inexact-float".
Local Open Scope string_scope.

(** ** Exceptions and results *)

Inductive error : Type :=
| ZeroDivisionError
| OverflowError
| NotImplementedError (msg : string)
| ValueError (msg : string)
| KeyError (key : string)
| TypeError.

Inductive result (A : Type) : Type :=
| Ok (a : A)
| Raise (e : error).
Arguments Ok {A} a.
Arguments Raise {A} e.

Definition bind {A B : Type} (r : result A) (k : A -> result B) : result B :=
  match r with
  | Ok a => k a
  | Raise e => Raise e
  end.

Notation "x <- r ;; k" := (bind r (fun x => k))
  (at level 61, r at next level, right associativity).

(** ** The float interface *)

(** What a float is worth: not a number, an infinity, or a finite value given
    by its sign bit and its magnitude. *)
Inductive fview : Type :=
| NaN
| Inf (neg : bool)
| Fin (neg : bool) (mag : Q).

Class PyFloat (F : Type) : Type := {
  of_int : Z -> F;                  (* float(n) *)
  literal : Z -> positive -> F;     (* the decimal literal n/d *)
  fadd : F -> F -> F;
  fsub : F -> F -> F;
  fmul : F -> F -> F;
  fdiv : F -> F -> F;               (* x / y, y not zero *)
  ffloordiv : F -> F -> F;          (* x // y, y not zero *)
  fpow : F -> Z -> F;               (* x ** n before the range check *)
  view : F -> fview
}.

Section Arithmetic.
Context {F : Type} `{PyFloat F}.

Definition is_zero (x : F) : bool :=
  match view x with
  | Fin _ q => Qeq_bool q 0
  | _ => false
  end.

Definition is_finite (x : F) : bool :=
  match view x with
  | Fin _ _ => true
  | _ => false
  end.

(** [x / y] *)
Definition truediv (x y : F) : result F :=
  if is_zero y then Raise ZeroDivisionError else Ok (fdiv x y).

(** [x // y] *)
Definition floordiv (x y : F) : result F :=
  if is_zero y then Raise ZeroDivisionError else Ok (ffloordiv x y).

(** [x ** n]: a finite base whose power leaves the float range raises. *)
Definition pow (x : F) (n : Z) : result F :=
  let r := fpow x n in
  if is_finite x && negb (is_finite r) then Raise OverflowError else Ok r.
End Arithmetic.

(** ** Fixed-point rendering: the format specifier [.3f] *)

(** The integer nearest to [q], a tie going to the even one. *)
Definition round_half_even (q : Q) : Z :=
  let n := Qnum q in
  let d := Zpos (Qden q) in
  let fl := (n / d)%Z in
  match (2 * (n mod d) ?= d)%Z with
  | Lt => fl
  | Gt => (fl + 1)%Z
  | Eq => if Z.even fl then fl else (fl + 1)%Z
  end.

Definition digits (n : Z) : string :=
  NilZero.string_of_uint (N.to_uint (Z.to_N n)).

Definition digit (n : Z) : string :=
  String (ascii_of_N (48 + Z.to_N n)) "".

(** [n] thousandths, [0 <= n], as digits, a point and three digits. *)
Definition thousandths (n : Z) : string :=
  digits (n / 1000) ++ "." ++
  digit (n / 100 mod 10) ++ digit (n / 10 mod 10) ++ digit (n mod 10).

Definition sign_str (neg : bool) : string := if neg then "-" else "".

Definition format_f3 {F : Type} `{PyFloat F} (x : F) : string :=
  match view x with
  | NaN => "nan"
  | Inf neg => sign_str neg ++ "inf"
  | Fin neg q => sign_str neg ++ thousandths (round_half_even (q * 1000))
  end.

Declare Scope py_scope.
Delimit Scope py_scope with py.
Infix "*" := fmul : py_scope.
Infix "+" := fadd : py_scope.
Infix "-" := fsub : py_scope.

(** ** The tracker *)

Section Tracker.
Context {F : Type} `{PyFloat F}.

(** *** InfoMessage *)

Record InfoMessage : Type := mkInfoMessage {
  training_type : string;
  duration : F;
  distance : F;
  speed : F;
  calories : F;
  message : string
}.

Definition default_message : string :=
  "Тип тренировки: {training_type}; " ++
  "Длительность: {duration:.3f} ч.; " ++
  "Дистанция: {distance:.3f} км; " ++
  "Ср. скорость: {speed:.3f} км/ч; " ++
  "Потрачено ккал: {calories:.3f}.".

(** The constructor called with five arguments: [message] keeps its
    default. *)
Definition new_InfoMessage (name : string) (d dist s c : F) : InfoMessage :=
  mkInfoMessage name d dist s c default_message.

Inductive value : Type :=
| VStr (s : string)
| VNum (x : F).

Definition asdict (m : InfoMessage) : list (string * value) :=
  [ ("training_type", VStr (training_type m));
    ("duration", VNum (duration m));
    ("distance", VNum (distance m));
    ("speed", VNum (speed m));
    ("calories", VNum (calories m));
    ("message", VStr (message m)) ].

Fixpoint lookup {A : Type} (k : string) (l : list (string * A)) : option A :=
  match l with
  | [] => None
  | (k', v) :: l' => if String.eqb k k' then Some v else lookup k l'
  end.

(** [format(v, spec)] for the two specifiers the module uses: none on a
    string, [.3f] on a number.  Python accepts more; any other pair is
    reported as a [ValueError]. *)
Definition format_value (v : value) (spec : string) : result string :=
  match v, spec with
  | VStr s, "" => Ok s
  | VNum x, ".3f" => Ok (format_f3 x)
  | _, _ => Raise (ValueError "format specifier")
  end.

Definition format_field (name spec : string) (kw : list (string * value))
  : result string :=
  match lookup name kw with
  | None => Raise (KeyError name)
  | Some v => format_value v spec
  end.

Inductive scan : Type :=
| Text
| Name (name : string)
| Spec (name spec : string).

Definition snoc (s : string) (c : ascii) : string := s ++ String c "".

(** [tpl.format( **kw )]: replacement fields [{name}] and [{name:spec}],
    the text between them copied. *)
Fixpoint str_format (tpl : string) (st : scan) (kw : list (string * value))
  : result string :=
  match tpl with
  | "" =>
      match st with
      | Text => Ok ""
      | _ => Raise (ValueError "expected '}' before end of string")
      end
  | String c rest =>
      match st with
      | Text =>
          if Ascii.eqb c "{" then str_format rest (Name "") kw
          else if Ascii.eqb c "}" then
            Raise (ValueError "Single '}' encountered in format string")
          else r <- str_format rest Text kw ;; Ok (String c r)
      | Name name =>
          if Ascii.eqb c "}" then
            s <- format_field name "" kw ;;
            r <- str_format rest Text kw ;; Ok (s ++ r)
          else if Ascii.eqb c ":" then str_format rest (Spec name "") kw
          else str_format rest (Name (snoc name c)) kw
      | Spec name spec =>
          if Ascii.eqb c "}" then
            s <- format_field name spec kw ;;
            r <- str_format rest Text kw ;; Ok (s ++ r)
          else str_format rest (Spec name (snoc spec c)) kw
      end
  end.

Definition get_message (m : InfoMessage) : result string :=
  str_format (message m) Text (asdict m).

(** *** Training and its subclasses *)

Inductive training : Type :=
| Training (action duration weight : F)
| Running (action duration weight : F)
| SportsWalking (action duration weight height : F)
| Swimming (action duration weight length_pool count_pool : F).

(** [self.__class__.__name__] *)
Definition class_name (t : training) : string :=
  match t with
  | Training _ _ _ => "Training"
  | Running _ _ _ => "Running"
  | SportsWalking _ _ _ _ => "SportsWalking"
  | Swimming _ _ _ _ _ => "Swimming"
  end.

Definition action (t : training) : F :=
  match t with
  | Training a _ _ | Running a _ _ | SportsWalking a _ _ _
  | Swimming a _ _ _ _ => a
  end.

(** [self.duration] of a training ([duration] alone names the field of
    InfoMessage). *)
Definition t_duration (t : training) : F :=
  match t with
  | Training _ d _ | Running _ d _ | SportsWalking _ d _ _
  | Swimming _ d _ _ _ => d
  end.

Definition weight (t : training) : F :=
  match t with
  | Training _ _ w | Running _ _ w | SportsWalking _ _ w _
  | Swimming _ _ w _ _ => w
  end.

Definition LEN_STEP (t : training) : F :=
  match t with
  | Swimming _ _ _ _ _ => literal 138 100
  | _ => literal 65 100
  end.

Definition M_IN_KM : F := of_int 1000.
Definition TIME_CONST : F := of_int 60.

Definition Running_coeff_calorie_1 : F := of_int 18.
Definition Running_coeff_calorie_2 : F := of_int 20.

Definition SportsWalking_coeff_calorie_1 : F := literal 35 1000.
Definition SportsWalking_coeff_calorie_2 : F := literal 29 1000.
Definition SportsWalking_coeff_calorie_3 : Z := 2.

Definition Swimming_coeff_calorie_1 : F := literal 11 10.
Definition Swimming_coeff_calorie_2 : F := of_int 2.

Local Open Scope py_scope.

Definition get_distance (t : training) : result F :=
  truediv (action t * LEN_STEP t) M_IN_KM.

Definition get_mean_speed (t : training) : result F :=
  match t with
  | Swimming _ d _ length_pool count_pool =>
      x <- truediv (length_pool * count_pool) M_IN_KM ;;
      truediv x d
  | _ =>
      dist <- get_distance t ;;
      truediv dist (t_duration t)
  end.

Definition get_spent_calories (t : training) : result F :=
  match t with
  | Training _ _ _ =>
      Raise (NotImplementedError "Требуется определить get_spent_calories()")
  | Running _ d w =>
      v <- get_mean_speed t ;;
      x <- truediv ((Running_coeff_calorie_1 * v - Running_coeff_calorie_2) * w)
                   M_IN_KM ;;
      Ok (x * d * TIME_CONST)
  | SportsWalking _ d w h =>
      v <- get_mean_speed t ;;
      p <- pow v SportsWalking_coeff_calorie_3 ;;
      q <- floordiv p h ;;
      Ok ((SportsWalking_coeff_calorie_1 * w
           + q * SportsWalking_coeff_calorie_2 * w)
          * TIME_CONST * d)
  | Swimming _ _ w _ _ =>
      v <- get_mean_speed t ;;
      Ok ((v + Swimming_coeff_calorie_1) * Swimming_coeff_calorie_2 * w)
  end.

Definition show_training_info (t : training) : result InfoMessage :=
  dist <- get_distance t ;;
  v <- get_mean_speed t ;;
  c <- get_spent_calories t ;;
  Ok (new_InfoMessage (class_name t) (t_duration t) dist v c).

(** *** Reading a package *)

(** A class called on the unpacked list: one argument per field, in the
    order of the fields; another number of arguments is a [TypeError]. *)
Definition new_Running (data : list F) : result training :=
  match data with
  | [a; d; w] => Ok (Running a d w)
  | _ => Raise TypeError
  end.

Definition new_SportsWalking (data : list F) : result training :=
  match data with
  | [a; d; w; h] => Ok (SportsWalking a d w h)
  | _ => Raise TypeError
  end.

Definition new_Swimming (data : list F) : result training :=
  match data with
  | [a; d; w; lp; cp] => Ok (Swimming a d w lp cp)
  | _ => Raise TypeError
  end.

Definition workout : list (string * (list F -> result training)) :=
  [ ("SWM", new_Swimming); ("RUN", new_Running); ("WLK", new_SportsWalking) ].

Definition read_package (workout_type : string) (data : list F)
  : result training :=
  match lookup workout_type workout with
  | None =>
      Raise (ValueError ("Такой тренировки - " ++ workout_type ++ ", не найдено"))
  | Some cls => cls data
  end.

(** [main] prints one line: the line is the result. *)
Definition main (t : training) : result string :=
  info <- show_training_info t ;;
  get_message info.
End Tracker.

Arguments InfoMessage F : clear implicits.
Arguments training F : clear implicits.
Arguments value F : clear implicits.

(** ** The exact instance: rationals, no rounding *)

Definition Q_view (q : Q) : fview := Fin (Qnum q <? 0)%Z (Qabs q).

Definition Q_floordiv (x y : Q) : Q := inject_Z (Qfloor (x / y)).

#[export] Instance exact : PyFloat Q := {
  of_int := inject_Z;
  literal n d := n # d;
  fadd := Qplus;
  fsub := Qminus;
  fmul := Qmult;
  fdiv := Qdiv;
  ffloordiv := Q_floordiv;
  fpow := Qpower;
  view := Q_view
}.

(** ** The binary64 instance: the interpreter's floats *)

Module B64.
Local Open Scope float_scope.

(** [float(n)]: the nearest float, ties to even. *)
Definition of_Z (n : Z) : float :=
  SF2Prim (binary_normalize prec emax n 0 false).

(** A decimal literal denotes the float nearest to it; the quotient of two
    exactly converted integers is that float. *)
Definition literal (n : Z) (d : positive) : float := of_Z n / of_Z (Zpos d).

Definition pow2 (e : Z) : Q :=
  match e with
  | Zneg p => 1 # (2 ^ p)
  | _ => inject_Z (2 ^ e)
  end.

Definition view (x : float) : fview :=
  match Prim2SF x with
  | S754_nan => NaN
  | S754_infinity s => Inf s
  | S754_zero s => Fin s 0
  | S754_finite s m e => Fin s (inject_Z (Zpos m) * pow2 e)
  end.

Definition sign_bit (x : float) : bool :=
  match Prim2SF x with
  | S754_zero s | S754_infinity s | S754_finite s _ _ => s
  | S754_nan => false
  end.

Definition signed_zero (s : bool) : float :=
  if s then PrimFloat.neg_zero else PrimFloat.zero.

(** C's [fmod(x, y)], [y] not zero: the remainder of the truncated
    quotient, exact, with the sign of [x]. *)
Definition fmod (x y : float) : float :=
  match Prim2SF x, Prim2SF y with
  | S754_nan, _ | _, S754_nan | S754_infinity _, _ | _, S754_zero _ => nan
  | _, S754_infinity _ => x
  | S754_zero _, _ => x
  | S754_finite sx mx ex, S754_finite _ my ey =>
      let e := Z.min ex ey in
      let r := ((Zpos mx * 2 ^ (ex - e)) mod (Zpos my * 2 ^ (ey - e)))%Z in
      if (r =? 0)%Z then signed_zero sx
      else SF2Prim (binary_normalize prec emax (cond_Zopp sx r) e false)
  end.

(** C's [floor]. *)
Definition floor (x : float) : float :=
  match Prim2SF x with
  | S754_finite s m e =>
      if (0 <=? e)%Z then x
      else
        let n := Z.shiftr (cond_Zopp s (Zpos m)) (- e) in
        if (n =? 0)%Z then PrimFloat.zero else of_Z n
  | _ => x
  end.

Definition nonzero (x : float) : bool := negb (x =? 0).

(** [float_floor_div] of the interpreter (floatobject.c), after its test
    of the divisor. *)
Definition floordiv (vx wx : float) : float :=
  let mod_ := fmod vx wx in
  let div := (vx - mod_) / wx in
  let div :=
    if nonzero mod_ && negb (Bool.eqb (wx <? 0) (mod_ <? 0))
    then div - 1 else div in
  if nonzero div then
    let fl := floor div in
    if 0.5 <? div - fl then fl + 1 else fl
  else signed_zero (sign_bit (vx / wx)).

(** [x ** n] for an [int] exponent [n]: correctly rounded products, [x * x]
    for the exponent 2 of the tracker. *)
Definition pow (x : float) (n : Z) : float :=
  match n with
  | Z0 => 1
  | Zpos p => Pos.iter_op mul p x
  | Zneg p => 1 / Pos.iter_op mul p x
  end.
End B64.

#[export] Instance binary64 : PyFloat float := {
  of_int := B64.of_Z;
  literal := B64.literal;
  fadd := PrimFloat.add;
  fsub := PrimFloat.sub;
  fmul := PrimFloat.mul;
  fdiv := PrimFloat.div;
  ffloordiv := B64.floordiv;
  fpow := B64.pow;
  view := B64.view
}.

(** ** The driver *)

Section Driver.
Context {F : Type} `{PyFloat F}.

Definition packages : list (string * list F) :=
  [ ("SWM", map of_int [720; 1; 80; 25; 40]%Z);
    ("RUN", map of_int [15000; 1; 75]%Z);
    ("WLK", map of_int [9000; 1; 75; 180]%Z) ].

(** One turn of the loop: the line printed for a package. *)
Definition run_package (p : string * list F) : result string :=
  t <- read_package (fst p) (snd p) ;;
  main t.

(** The statistics of a package, before rendering. *)
Definition package_info (p : string * list F) : result (InfoMessage F) :=
  t <- read_package (fst p) (snd p) ;;
  show_training_info t.
End Driver.

(** [needle in hay] *)
Definition contains (hay needle : string) : bool :=
  match index 0 needle hay with
  | Some _ => true
  | None => false
  end.

(** ** The distance against the steps, as a test compares them *)




(** ** The fields of an instance, the loop of the script *)

Section Script.
Context {F : Type} `{PyFloat F}.

(** The fields of an instance in declaration order, as the generated
    [__init__] takes them. *)
Definition astuple (t : training F) : list F :=
  match t with
  | Training a d w | Running a d w => [a; d; w]
  | SportsWalking a d w h => [a; d; w; h]
  | Swimming a d w lp cp => [a; d; w; lp; cp]
  end.

(** The loop over the packages: the lines printed, and the exception that
    ended the run if one did. *)
Fixpoint run_all (ps : list (string * list F)) : list string * option error :=
  match ps with
  | [] => ([], None)
  | p :: ps' =>
      match run_package p with
      | Ok line => let (lines, e) := run_all ps' in (line :: lines, e)
      | Raise e => ([], Some e)
      end
  end.
(** The exceptions open to the methods of a class. *)
Definition may_raise (t : training F) (e : error) : Prop :=
  match t with
  | Training _ _ _ =>
      e = ZeroDivisionError
      \/ e = NotImplementedError "Требуется определить get_spent_calories()"
  | SportsWalking _ _ _ _ => e = ZeroDivisionError \/ e = OverflowError
  | _ => e = ZeroDivisionError
  end.
End Script.

(** No character of [s] is one of [cs]. *)
Fixpoint free_of (cs : list ascii) (s : string) : bool :=
  match s with
  | "" => true
  | String c s' => negb (existsb (Ascii.eqb c) cs) && free_of cs s'
  end.

(** ** Sample inputs *)

Definition run_example : string * list float := ("RUN", [15000; 1; 75]%float).

Definition run_example_exact : string * list Q := ("RUN", [15000 # 1; 1; 75 # 1]).

(** * Properties *)

(** ** The end-to-end example *)

Lemma run_example_in_packages :
  nth_error (packages (F := float)) 1 = Some run_example.
Proof. reflexivity. Qed.

(** C1, as stated, fails: on [('RUN', [15000, 1, 75])] the calories are
    699.75, which is not 700.65 to two decimals, and the printed line does not
    contain the text the claim quotes. *)
Lemma C1_calories_are_not_700_65 :
  (exists info,
      package_info run_example = Ok info
      /\ calories info = 699.75%float
      /\ (calories info <? 700.645)%float = true)
  /\ (exists line,
      run_package run_example = Ok line
      /\ contains line
           "Длительность: 1.000 ч.; Дистанция: 9.750 км; Ср. скорость: 9.750 км/ч; Потрачено ккал: 700.650."
         = false).
Proof.
  split.
  - eexists. split; [vm_compute; reflexivity |]. split; reflexivity.
  - eexists. split; [vm_compute; reflexivity |]. vm_compute. reflexivity.
Qed.

(** C1, amended: on [('RUN', [15000, 1, 75])] the distance is 9.75 km, the
    mean speed 9.75 km/h and the calories (18*9.75-20)*75/1000*1*60 = 699.75,
    in binary64 as in exact arithmetic, and the printed line is the template
    filled with 1.000, 9.750, 9.750 and 699.750. *)
Theorem C1_run_example :
  package_info run_example
    = Ok (new_InfoMessage "Running" 1 9.75 9.75 699.75)%float
  /\ run_package run_example
    = Ok "Тип тренировки: Running; Длительность: 1.000 ч.; Дистанция: 9.750 км; Ср. скорость: 9.750 км/ч; Потрачено ккал: 699.750."
  /\ (exists line,
       run_package run_example = Ok line
       /\ contains line
            "Длительность: 1.000 ч.; Дистанция: 9.750 км; Ср. скорость: 9.750 км/ч; Потрачено ккал: 699.750."
          = true)
  /\ (exists info,
       package_info run_example_exact = Ok info
       /\ training_type info = "Running"
       /\ duration info == 1
       /\ distance info == 9.75
       /\ speed info == 9.75
       /\ calories info == 699.75
       /\ (18 * 9.75 - 20) * 75 / 1000 * 1 * 60 == 699.75)%Q
  /\ run_package run_example_exact = run_package run_example.
Proof.
  split; [vm_compute; reflexivity |].
  split; [vm_compute; reflexivity |].
  split; [eexists; split; vm_compute; reflexivity |].
  split; [| vm_compute; reflexivity].
  eexists. split; [vm_compute; reflexivity |].
  repeat split; vm_compute; reflexivity.
Qed.

(** ** Evaluation lemmas of the exact instance *)



Lemma exact_M_IN_KM : is_zero (M_IN_KM (F := Q)) = false.
Proof. reflexivity. Qed.








(** ** Monotonicity in the weight *)




(** ** Evaluation lemmas of the binary64 instance *)


(** The literals of the source are the floats the interpreter reads. *)
Lemma b64_literals :
  (literal 65 100 = 0.65 /\ literal 138 100 = 1.38 /\ literal 35 1000 = 0.035
   /\ literal 29 1000 = 0.029 /\ literal 11 10 = 1.1
   /\ of_int 1000 = 1000 /\ of_int 60 = 60 /\ of_int 18 = 18 /\ of_int 20 = 20)%float.
Proof. repeat split; reflexivity. Qed.

(** Floor division as the interpreter answers it. *)
Lemma b64_floordiv_examples :
  (B64.floordiv 7 2 = 3 /\ B64.floordiv (-7) 2 = -4 /\ B64.floordiv 7 (-2) = -4
   /\ B64.floordiv 34.2225 180 = 0 /\ B64.floordiv 34.2225 10 = 3
   /\ B64.floordiv 6 0.1 = 59 /\ B64.floordiv 1 0.1 = 9
   /\ B64.floordiv (-0.5) 3 = -1 /\ B64.fmod 7.5 2 = 1.5 /\ B64.fmod (-7.5) 2 = -1.5
   /\ B64.floor (-0.5) = -1 /\ B64.floor 2.75 = 2)%float.
Proof. repeat split; vm_compute; reflexivity. Qed.


Lemma b64_M_IN_KM : is_zero (M_IN_KM (F := float)) = false.
Proof. reflexivity. Qed.






(** ** The calories of Running *)



(** ** The calories of SportsWalking *)






(** ** Division by a zero height *)




(** ** Reading a package *)

Lemma lookup_workout {F : Type} `{PyFloat F} (code : string) :
  lookup code (workout (F := F))
  = if String.eqb code "SWM" then Some new_Swimming
    else if String.eqb code "RUN" then Some new_Running
    else if String.eqb code "WLK" then Some new_SportsWalking
    else None.
Proof. reflexivity. Qed.

(** C4, as stated, fails: a known code does not by itself give an instance.
    ['RUN'] with an empty list of values raises the constructor's arity error,
    which is neither an instance nor the error carrying the code. *)
Lemma C4_known_code_without_values :
  read_package "RUN" ([] : list float) = Raise TypeError
  /\ read_package "SWM" [720; 1; 80]%float = Raise TypeError.
Proof. split; reflexivity. Qed.

(** C4, amended: [read_package] fails with the error carrying the code
    exactly when the code is none of SWM, RUN and WLK; for one of the three it
    calls the mapped class on the values, which returns the instance with the
    values bound to the fields in declaration order when their number is the
    number of fields (5, 3 and 4), and fails with the arity error otherwise. *)
Theorem C4_read_package {F : Type} `{PyFloat F} :
  (forall (code : string) (data : list F),
      read_package code data
        = Raise (ValueError ("Такой тренировки - " ++ code ++ ", не найдено"))
      <-> ~ In code ["SWM"; "RUN"; "WLK"])
  /\ (forall (code : string) (data : list F) (msg : string),
      read_package code data = Raise (ValueError msg) ->
      ~ In code ["SWM"; "RUN"; "WLK"])
  /\ (forall a d w lp cp : F,
      read_package "SWM" [a; d; w; lp; cp] = Ok (Swimming a d w lp cp))
  /\ (forall a d w : F,
      read_package "RUN" [a; d; w] = Ok (Running a d w))
  /\ (forall a d w h : F,
      read_package "WLK" [a; d; w; h] = Ok (SportsWalking a d w h))
  /\ (forall data : list F,
      (List.length data <> 5%nat -> read_package "SWM" data = Raise TypeError)
      /\ (List.length data <> 3%nat -> read_package "RUN" data = Raise TypeError)
      /\ (List.length data <> 4%nat -> read_package "WLK" data = Raise TypeError))
  /\ read_package "SWM" (map of_int [720; 1; 80; 25; 40]%Z)
     = Ok (Swimming (of_int 720) (of_int 1) (of_int 80) (of_int 25) (of_int 40))
  /\ read_package "XYZ" ([] : list F)
     = Raise (ValueError "Такой тренировки - XYZ, не найдено").
Proof.
  assert (K : forall (code : string) (data : list F) (msg : string),
             read_package code data = Raise (ValueError msg) ->
             ~ In code ["SWM"; "RUN"; "WLK"]).
  { intros code data msg E [<- | [<- | [<- | []]]];
      unfold read_package in E; rewrite lookup_workout in E; cbn in E;
      repeat (destruct data as [| ? data]; try discriminate E). }
  split; [| split; [exact K |]].
  - intros code data. split; [apply K |].
    intro N. unfold read_package. rewrite lookup_workout.
    destruct (String.eqb_spec code "SWM") as [-> | _]; [exfalso; apply N; cbn; tauto |].
    destruct (String.eqb_spec code "RUN") as [-> | _]; [exfalso; apply N; cbn; tauto |].
    destruct (String.eqb_spec code "WLK") as [-> | _]; [exfalso; apply N; cbn; tauto |].
    reflexivity.
  - repeat split; try reflexivity;
      intro L; repeat (destruct data as [| ? data]; try reflexivity; try (exfalso; apply L; reflexivity)).
Qed.

Lemma C4_read_package_witness :
  read_package "ABC" [1; 2; 3]%float
    = Raise (ValueError "Такой тренировки - ABC, не найдено")
  /\ read_package "RUN" [1; 2]%float = Raise TypeError.
Proof.
  split.
  - apply (proj1 C4_read_package "ABC" [1; 2; 3]%float).
    intros [E | [E | [E | []]]]; discriminate E.
  - apply (proj1 (proj2 (proj1 (proj2 (proj2 (proj2 (proj2 (proj2
             C4_read_package))))) [1; 2]%float))).
    discriminate.
Defined.

(** ** Swimming: speed and calories do not read the action count *)



(** ** The distance and the steps *)









(** ** The message *)

Lemma round_half_even_nearest (q : Q) :
  Qabs (inject_Z (round_half_even q) - q) <= 1 # 2.
Proof.
  destruct q as [n d]. unfold round_half_even. cbn [Qnum Qden].
  pose proof (Z.div_mod n (Z.pos d) ltac:(lia)) as E.
  pose proof (Z.mod_pos_bound n (Z.pos d) ltac:(lia)) as B.
  set (fl := (n / Z.pos d)%Z) in *. set (r := (n mod Z.pos d)%Z) in *.
  apply Qabs_Qle_condition.
  assert (Lo : forall z : Z, (2 * (z * Z.pos d - n) <= Z.pos d)%Z ->
                             inject_Z z - (n # d) <= 1 # 2).
  { intros z Hz. unfold Qle, Qminus, Qplus, Qopp, inject_Z. cbn. lia. }
  assert (Hi : forall z : Z, (- Z.pos d <= 2 * (z * Z.pos d - n))%Z ->
                             - (1 # 2) <= inject_Z z - (n # d)).
  { intros z Hz. unfold Qle, Qminus, Qplus, Qopp, inject_Z. cbn. lia. }
  destruct (Z.compare_spec (2 * r) (Z.pos d)) as [C | C | C].
  - destruct (Z.even fl); split; (apply Hi || apply Lo); lia.
  - split; (apply Hi || apply Lo); lia.
  - split; (apply Hi || apply Lo); lia.
Qed.

Lemma round_half_even_nonneg (q : Q) : 0 <= q -> (0 <= round_half_even q)%Z.
Proof.
  destruct q as [n d]. unfold Qle. cbn. intro Hn.
  unfold round_half_even. cbn [Qnum Qden].
  assert (0 <= n / Z.pos d)%Z by (apply Z.div_pos; lia).
  destruct (2 * (n mod Z.pos d) ?= Z.pos d)%Z; [destruct (Z.even _) | |]; lia.
Qed.

Lemma thousandths_shape (n : Z) :
  exists d1 d2 d3 : Z,
    (0 <= d1 <= 9)%Z /\ (0 <= d2 <= 9)%Z /\ (0 <= d3 <= 9)%Z
    /\ (n mod 1000 = 100 * d1 + 10 * d2 + d3)%Z
    /\ thousandths n = digits (n / 1000) ++ "." ++ digit d1 ++ digit d2 ++ digit d3.
Proof.
  exists (n / 100 mod 10)%Z, (n / 10 mod 10)%Z, (n mod 10)%Z.
  pose proof (Z.mod_pos_bound (n / 100) 10 ltac:(lia)).
  pose proof (Z.mod_pos_bound (n / 10) 10 ltac:(lia)).
  pose proof (Z.mod_pos_bound n 10 ltac:(lia)).
  repeat split; try lia.
  pose proof (Z.div_mod n 1000 ltac:(lia)).
  pose proof (Z.div_mod n 100 ltac:(lia)).
  pose proof (Z.div_mod n 10 ltac:(lia)).
  pose proof (Z.div_mod (n / 100) 10 ltac:(lia)).
  pose proof (Z.div_mod (n / 10) 10 ltac:(lia)).
  pose proof (Z.mod_pos_bound n 1000 ltac:(lia)).
  pose proof (Z.mod_pos_bound n 100 ltac:(lia)).
  assert (n / 100 / 10 = n / 1000)%Z by (rewrite Z.div_div by lia; reflexivity).
  assert (n / 10 / 10 = n / 100)%Z by (rewrite Z.div_div by lia; reflexivity).
  lia.
Qed.

Lemma get_message_default {F : Type} `{PyFloat F} (name : string) (d dist s c : F) :
  get_message (new_InfoMessage name d dist s c)
  = Ok ("Тип тренировки: " ++ name
        ++ "; Длительность: " ++ format_f3 d
        ++ " ч.; Дистанция: " ++ format_f3 dist
        ++ " км; Ср. скорость: " ++ format_f3 s
        ++ " км/ч; Потрачено ккал: " ++ format_f3 c ++ ".").
Proof. reflexivity. Qed.

(** C8, as stated, fails in binary64 for a value that is not finite: with a
    weight of 1e308 the calories of the sample run overflow to infinity, and
    the message ends in [inf], without decimals. *)
Lemma C8_infinite_calories_render_as_inf :
  (exists info,
      package_info ("RUN", [15000; 1; 1e308]%float) = Ok info
      /\ calories info = infinity)
  /\ run_package ("RUN", [15000; 1; 1e308]%float)
     = Ok "Тип тренировки: Running; Длительность: 1.000 ч.; Дистанция: 9.750 км; Ср. скорость: 9.750 км/ч; Потрачено ккал: inf."
  /\ format_f3 infinity = "inf"
  /\ format_f3 nan = "nan".
Proof.
  split; [eexists; split; vm_compute; reflexivity |].
  repeat split; vm_compute; reflexivity.
Qed.

(** C8, amended: for every InfoMessage built with the default template,
    [get_message] returns the template with the label, then the duration, the
    distance, the mean speed and the calories, each number formatted by
    [.3f]; a finite number is rendered as its sign, the digits of the integer
    part, a point and exactly three digits, which are those of the
    thousandth nearest to its value (a tie going to the even one), trailing
    zeros included; an infinity is rendered as [inf] or [-inf] and a NaN as
    [nan].  9.75 gives "9.750", 1.2346 gives "1.235" (rounded, not cut) and
    0.0625 gives "0.062" (the tie). *)
Theorem C8_get_message :
  (forall (F : Type) (P : PyFloat F) (name : string) (d dist s c : F),
      get_message (new_InfoMessage name d dist s c)
      = Ok ("Тип тренировки: " ++ name
            ++ "; Длительность: " ++ format_f3 d
            ++ " ч.; Дистанция: " ++ format_f3 dist
            ++ " км; Ср. скорость: " ++ format_f3 s
            ++ " км/ч; Потрачено ккал: " ++ format_f3 c ++ "."))
  /\ (forall (F : Type) (P : PyFloat F) (x : F),
      match view x with
      | Fin neg q =>
          exists n d1 d2 d3 : Z,
            n = round_half_even (q * 1000)
            /\ Qabs (inject_Z n / 1000 - q) <= 1 # 2000
            /\ (0 <= d1 <= 9)%Z /\ (0 <= d2 <= 9)%Z /\ (0 <= d3 <= 9)%Z
            /\ (n mod 1000 = 100 * d1 + 10 * d2 + d3)%Z
            /\ format_f3 x
               = sign_str neg ++ digits (n / 1000) ++ "."
                 ++ digit d1 ++ digit d2 ++ digit d3
      | Inf neg => format_f3 x = sign_str neg ++ "inf"
      | NaN => format_f3 x = "nan"
      end)
  /\ (format_f3 9.75 = "9.750" /\ format_f3 1.2346 = "1.235"
      /\ format_f3 0.0625 = "0.062" /\ format_f3 (-0.5) = "-0.500"
      /\ format_f3 1 = "1.000")%float
  /\ (format_f3 9.75%Q = "9.750" /\ format_f3 1.2346%Q = "1.235"
      /\ format_f3 0.0625%Q = "0.062" /\ format_f3 (-0.5)%Q = "-0.500").
Proof.
  split; [intros; apply get_message_default |].
  split; [| split; repeat split; vm_compute; reflexivity].
  intros F P x. unfold format_f3.
  destruct (view x) as [| neg | neg q]; try reflexivity.
  destruct (thousandths_shape (round_half_even (q * 1000)))
    as (d1 & d2 & d3 & B1 & B2 & B3 & M & S).
  exists (round_half_even (q * 1000)), d1, d2, d3.
  split; [reflexivity |].
  split; [| repeat split; try lia; rewrite S; reflexivity].
  pose proof (round_half_even_nearest (q * 1000)) as N.
  apply Qabs_Qle_condition in N. apply Qabs_Qle_condition.
  destruct N as [N1 N2].
  set (z := inject_Z (round_half_even (q * 1000))) in *.
  assert (E : z / 1000 - q == (z - q * 1000) * (1 # 1000)) by field.
  rewrite E. split; lra.
Qed.

(** ** Distance against speed and duration *)




(** * Further properties of the module *)

(** ** What a call can raise *)

Section Raised.
Context {F : Type} `{PyFloat F}.

Lemma truediv_raises (x y : F) (e : error) :
  truediv x y = Raise e -> e = ZeroDivisionError.
Proof.
  unfold truediv. destruct (is_zero y); [| discriminate].
  intro E. injection E as <-. reflexivity.
Qed.

Lemma floordiv_raises (x y : F) (e : error) :
  floordiv x y = Raise e -> e = ZeroDivisionError.
Proof.
  unfold floordiv. destruct (is_zero y); [| discriminate].
  intro E. injection E as <-. reflexivity.
Qed.

Lemma pow_raises (x : F) (n : Z) (e : error) :
  pow x n = Raise e -> e = OverflowError.
Proof.
  unfold pow. destruct (is_finite x && negb (is_finite (fpow x n))); [| discriminate].
  intro E. injection E as <-. reflexivity.
Qed.

Lemma get_distance_raises (t : training F) (e : error) :
  get_distance t = Raise e -> e = ZeroDivisionError.
Proof. apply truediv_raises. Qed.

Lemma get_mean_speed_raises (t : training F) (e : error) :
  get_mean_speed t = Raise e -> e = ZeroDivisionError.
Proof.
  destruct t as [a d w | a d w | a d w h | a d w lp cp]; unfold get_mean_speed;
    try (destruct (get_distance _) as [x | e'] eqn:D; cbn [bind];
         [apply truediv_raises
         | intro E; injection E as <-; eapply get_distance_raises; exact D]).
  destruct (truediv (lp * cp)%py M_IN_KM) as [x | e'] eqn:D; cbn [bind].
  - apply truediv_raises.
  - intro E; injection E as <-. eapply truediv_raises; exact D.
Qed.

Lemma get_spent_calories_raises (t : training F) (e : error) :
  get_spent_calories t = Raise e -> may_raise t e.
Proof.
  destruct t as [a d w | a d w | a d w h | a d w lp cp];
    unfold get_spent_calories, may_raise.
  - intro E. injection E as <-. right. reflexivity.
  - destruct (get_mean_speed _) as [v | e'] eqn:V; cbn [bind].
    + destruct (truediv _ M_IN_KM) as [x | e''] eqn:D; cbn [bind]; [discriminate |].
      intro E; injection E as <-. eapply truediv_raises; exact D.
    + intro E; injection E as <-. eapply get_mean_speed_raises; exact V.
  - destruct (get_mean_speed _) as [v | e'] eqn:V; cbn [bind].
    + destruct (pow v _) as [p | e''] eqn:P; cbn [bind].
      * destruct (floordiv p h) as [q | e3] eqn:Q; cbn [bind]; [discriminate |].
        intro E; injection E as <-. left. eapply floordiv_raises; exact Q.
      * intro E; injection E as <-. right. eapply pow_raises; exact P.
    + intro E; injection E as <-. left. eapply get_mean_speed_raises; exact V.
  - destruct (get_mean_speed _) as [v | e'] eqn:V; cbn [bind]; [discriminate |].
    intro E; injection E as <-. eapply get_mean_speed_raises; exact V.
Qed.

Lemma read_package_inverts (code : string) (data : list F) (t : training F) :
  read_package code data = Ok t ->
  data = astuple t
  /\ ((code = "SWM" /\ class_name t = "Swimming")
      \/ (code = "RUN" /\ class_name t = "Running")
      \/ (code = "WLK" /\ class_name t = "SportsWalking")).
Proof.
  intro E. unfold read_package in E. rewrite lookup_workout in E.
  destruct (String.eqb_spec code "SWM") as [-> | _];
    [| destruct (String.eqb_spec code "RUN") as [-> | _];
       [| destruct (String.eqb_spec code "WLK") as [-> | _]; [| discriminate E]]];
    cbn in E;
    repeat (destruct data as [| ? data]; try discriminate E);
    injection E as <-; cbn; tauto.
Qed.

End Raised.

(** ** read_package against the fields *)

(** X1: [read_package] returns instances of the three subclasses only, the
    class being the one of the code, and the values it was given are the
    fields of the instance in declaration order; every instance of a subclass
    is read back from its fields under one of the three codes.  The abstract
    [get_spent_calories] of the base class is therefore never reached on what
    [read_package] returns. *)
Theorem read_package_round_trip {F : Type} `{PyFloat F} :
  (forall (code : string) (data : list F) (t : training F),
      read_package code data = Ok t ->
      data = astuple t
      /\ ((code = "SWM" /\ class_name t = "Swimming")
          \/ (code = "RUN" /\ class_name t = "Running")
          \/ (code = "WLK" /\ class_name t = "SportsWalking")))
  /\ (forall t : training F,
      class_name t <> "Training" ->
      exists code, In code ["SWM"; "RUN"; "WLK"]
                   /\ read_package code (astuple t) = Ok t)
  /\ (forall (code : string) (data : list F) (t : training F) (msg : string),
      read_package code data = Ok t ->
      get_spent_calories t <> Raise (NotImplementedError msg)).
Proof.
  split; [exact read_package_inverts |]. split.
  - intros t Ht. destruct t as [a d w | a d w | a d w h | a d w lp cp].
    + exfalso. apply Ht. reflexivity.
    + exists "RUN". split; [cbn; tauto | reflexivity].
    + exists "WLK". split; [cbn; tauto | reflexivity].
    + exists "SWM". split; [cbn; tauto | reflexivity].
  - intros code data t msg E C.
    apply read_package_inverts in E as [_ E].
    apply get_spent_calories_raises in C. unfold may_raise in C.
    destruct t; cbn in E; try discriminate C;
      try (destruct C; discriminate);
      destruct E as [[_ E] | [[_ E] | [_ E]]]; discriminate E.
Qed.

Lemma read_package_round_trip_witness :
  [9000; 1; 75; 180]%float = astuple (SportsWalking 9000 1 75 180)%float
  /\ (("WLK" = "SWM" /\ class_name (SportsWalking 9000 1 75 180)%float = "Swimming")
      \/ ("WLK" = "RUN" /\ class_name (SportsWalking 9000 1 75 180)%float = "Running")
      \/ ("WLK" = "WLK"
          /\ class_name (SportsWalking 9000 1 75 180)%float = "SportsWalking")).
Proof.
  apply (proj1 read_package_round_trip "WLK" [9000; 1; 75; 180]%float).
  reflexivity.
Defined.

(** ** main *)



(** ** A duration of zero *)














(** ** The calorie formulas in exact arithmetic *)















(** ** Rendering *)

Lemma round_half_even_small (q : Q) :
  0 <= q -> q <= 1 # 2 -> round_half_even q = 0%Z.
Proof.
  destruct q as [n d]. unfold Qle. cbn. intros L U.
  unfold round_half_even. cbn [Qnum Qden].
  assert (B : (0 <= n < Z.pos d)%Z) by lia.
  rewrite (Z.div_small n (Z.pos d) B), (Z.mod_small n (Z.pos d) B).
  destruct (Z.compare_spec (2 * n) (Z.pos d)) as [C | C | C]; try reflexivity. lia.
Qed.

(** X9: a finite number whose magnitude is at most half a thousandth is
    printed by [.3f] as [0.000], with a minus sign when its sign bit is set:
    a slightly negative result shows as [-0.000]. *)
Theorem small_values_render_as_zero {F : Type} `{PyFloat F} :
  forall (x : F) (neg : bool) (m : Q),
    view x = Fin neg m ->
    0 <= m -> m <= 1 # 2000 ->
    format_f3 x = sign_str neg ++ "0.000".
Proof.
  intros x neg m V L U. unfold format_f3. rewrite V.
  rewrite round_half_even_small by lra. reflexivity.
Qed.

Lemma small_values_render_as_zero_witness :
  format_f3 (-0.0001)%float = "-0.000" /\ format_f3 (1 # 2000) = "0.000".
Proof.
  split.
  - eapply (small_values_render_as_zero (-0.0001)%float true).
    + vm_compute. reflexivity.
    + vm_compute. discriminate.
    + vm_compute. discriminate.
  - apply (small_values_render_as_zero (1 # 2000) false (1 # 2000)).
    + reflexivity.
    + discriminate.
    + discriminate.
Defined.

Lemma str_format_text {F : Type} `{PyFloat F} (kw : list (string * value F)) (s : string) :
  free_of ["{"; "}"]%char s = true -> str_format s Text kw = Ok s.
Proof.
  induction s as [| c s IH]; [reflexivity |].
  cbn [free_of existsb]. rewrite orb_false_r.
  intro E. apply andb_true_iff in E as [E1 E2].
  apply negb_true_iff, orb_false_iff in E1 as [A B].
  cbn [str_format]. rewrite A, B, (IH E2). reflexivity.
Qed.

(** X10: an InfoMessage built with a [message] of its own in which no brace
    occurs prints that text unchanged, whatever its label and its numbers. *)
Theorem get_message_without_fields {F : Type} `{PyFloat F} :
  forall m : InfoMessage F,
    free_of ["{"; "}"]%char (message m) = true ->
    get_message m = Ok (message m).
Proof.
  intros m E. unfold get_message. apply str_format_text. exact E.
Qed.

Lemma get_message_without_fields_witness :
  get_message (mkInfoMessage "Running" 1 9.75 9.75 699.75 "нет данных")%float
  = Ok "нет данных".
Proof.
  apply (get_message_without_fields
           (mkInfoMessage "Running" 1 9.75 9.75 699.75 "нет данных")%float).
  reflexivity.
Defined.

(** ** The loop of the script *)

Lemma run_all_app {F : Type} `{PyFloat F} (ps1 ps2 : list (string * list F)) :
  run_all (ps1 ++ ps2)
  = match run_all ps1 with
    | (lines1, None) => let (lines2, e) := run_all ps2 in ((lines1 ++ lines2)%list, e)
    | (lines1, Some e) => (lines1, Some e)
    end.
Proof.
  induction ps1 as [| p ps1 IH]; cbn [app run_all].
  - destruct (run_all ps2); reflexivity.
  - destruct (run_package p) as [line | e]; [| reflexivity].
    rewrite IH. destruct (run_all ps1) as [l1 [e1 |]]; [reflexivity |].
    destruct (run_all ps2); reflexivity.
Qed.

Lemma run_all_lines {F : Type} `{PyFloat F} (ps : list (string * list F)) :
  forall (i : nat) (line : string),
    nth_error (fst (run_all ps)) i = Some line ->
    exists p, nth_error ps i = Some p /\ run_package p = Ok line.
Proof.
  induction ps as [| p ps IH]; intros i line E; cbn [run_all] in E.
  - destruct i; discriminate E.
  - destruct (run_package p) as [l | e] eqn:R.
    + destruct (run_all ps) as [ls e']. cbn [fst] in *.
      destruct i as [| i]; cbn in E.
      * injection E as <-. exists p. split; [reflexivity | exact R].
      * apply IH in E as (q & Q1 & Q2). exists q. split; assumption.
    + destruct i; discriminate E.
Qed.

Lemma run_all_complete {F : Type} `{PyFloat F} (ps : list (string * list F)) :
  (List.length (fst (run_all ps)) <= List.length ps)%nat
  /\ (snd (run_all ps) = None <-> List.length (fst (run_all ps)) = List.length ps).
Proof.
  induction ps as [| p ps [IH1 IH2]]; cbn [run_all].
  - cbn. split; [lia | tauto].
  - destruct (run_package p) as [l | e].
    + destruct (run_all ps) as [ls e']. cbn [fst snd List.length] in *.
      split; [lia |]. rewrite IH2. lia.
    + cbn. split; [lia |]. split; [discriminate | lia].
Qed.

(** X11: the loop prints the lines of the packages in their order and stops
    at the first package that raises: the packages after it are not read,
    the lines before it stay printed, and the run ends without an exception
    exactly when there are as many lines as packages.  On the three packages
    of the script it prints three lines and raises nothing, the same lines
    in binary64 and in exact arithmetic. *)
Theorem run_all_stops_at_first_failure :
  (forall (F : Type) (P : PyFloat F) (ps1 ps2 : list (string * list F))
          (p : string * list F) (lines : list string) (e : error),
      run_all ps1 = (lines, None) ->
      run_package p = Raise e ->
      run_all (ps1 ++ p :: ps2) = (lines, Some e))
  /\ (forall (F : Type) (P : PyFloat F) (ps : list (string * list F))
             (i : nat) (line : string),
      nth_error (fst (run_all ps)) i = Some line ->
      exists p, nth_error ps i = Some p /\ run_package p = Ok line)
  /\ (forall (F : Type) (P : PyFloat F) (ps : list (string * list F)),
      (List.length (fst (run_all ps)) <= List.length ps)%nat
      /\ (snd (run_all ps) = None
          <-> List.length (fst (run_all ps)) = List.length ps))
  /\ run_all (packages (F := float))
     = ([ "Тип тренировки: Swimming; Длительность: 1.000 ч.; Дистанция: 0.994 км; Ср. скорость: 1.000 км/ч; Потрачено ккал: 336.000.";
          "Тип тренировки: Running; Длительность: 1.000 ч.; Дистанция: 9.750 км; Ср. скорость: 9.750 км/ч; Потрачено ккал: 699.750.";
          "Тип тренировки: SportsWalking; Длительность: 1.000 ч.; Дистанция: 5.850 км; Ср. скорость: 5.850 км/ч; Потрачено ккал: 157.500." ],
        None)
  /\ run_all (packages (F := Q)) = run_all (packages (F := float)).
Proof.
  split; [| split; [| split; [| split]]].
  - intros F P ps1 ps2 p lines e E1 E2.
    rewrite run_all_app, E1. cbn [run_all]. rewrite E2.
    rewrite app_nil_r. reflexivity.
  - intros F P. apply run_all_lines.
  - intros F P. apply run_all_complete.
  - vm_compute. reflexivity.
  - vm_compute. reflexivity.
Qed.

Lemma run_all_stops_at_first_failure_witness :
  run_all ([("RUN", [15000; 1; 75]); ("XYZ", []); ("SWM", [720; 1; 80; 25; 40])]%float)
  = ([ "Тип тренировки: Running; Длительность: 1.000 ч.; Дистанция: 9.750 км; Ср. скорость: 9.750 км/ч; Потрачено ккал: 699.750." ],
     Some (ValueError "Такой тренировки - XYZ, не найдено")).
Proof.
  apply (proj1 run_all_stops_at_first_failure float binary64
           [("RUN", [15000; 1; 75]%float)] [("SWM", [720; 1; 80; 25; 40]%float)]
           ("XYZ", [])).
  - vm_compute. reflexivity.
  - vm_compute. reflexivity.
Defined.
